(** * The [gears.h] bridge header of RoverIos

    [src/RoverIos/RoverIos/Gears/gears.h] is the whole of the native bridge
    that the iOS host sees: four standard includes, one typedef and two
    function prototypes.  This development embeds the header twice, as the
    text of its ten lines and as the list of declarations that text
    denotes, relates the two by a small lexer and declaration parser, and
    then states what the header does and does not declare. *)

From Stdlib Require Import String Ascii List Bool Lia.
Import ListNotations.
Open Scope string_scope.
Open Scope list_scope.

Set Warnings "-register-all".

(** ** Abstract syntax of the C declarations a header can hold *)

Module CSyntax.

(** Tokens of a header line.  A preprocessor [#include] line is kept as
    one token. *)
Inductive token : Type :=
| Kident (name : string)
| Kpunct (c : ascii)
| Kinclude (system : bool) (file : string).

(** Types, as far as declarations in a header spell them: the builtin
    specifiers, a name used as a type specifier (a typedef name, or in
    Objective-C a class name), struct and enum tags, a [const]
    qualification, pointers and function types. *)
Inductive ctype : Type :=
| Tvoid
| Tchar
| Tint
| Tnamed (name : string)
| Tstruct (tag : string)
| Tenum (tag : string)
| Tconst (t : ctype)
| Tpointer (t : ctype)
| Tfunction (ret : ctype) (params : list ctype).

(** A parameter of a prototype or a field of a struct; the name of a
    parameter may be left out, as the typedef of [Callback] does. *)
Record param : Type := mkParam {
  p_type : ctype;
  p_name : option string
}.

(** File-scope declarations.  A function carries its body when the header
    defines it and [None] when it only declares it. *)
Inductive decl : Type :=
| Dinclude (system : bool) (file : string)
| Dtypedef (name : string) (ty : ctype)
| Dfunction (ret : ctype) (name : string) (params : list param)
            (body : option (list token))
| Dvariable (ty : ctype) (name : string)
| Dstruct (tag : string) (fields : list param)
| Denum (tag : string) (enumerators : list string).

Definition header : Type := list decl.

End CSyntax.
Import CSyntax.

(** ** From lines to tokens *)

Module Lexer.

Definition is_space (c : ascii) : bool :=
  let n := nat_of_ascii c in
  Nat.eqb n 32 || Nat.eqb n 9 || Nat.eqb n 10 || Nat.eqb n 13.

Definition is_ident_char (c : ascii) : bool :=
  let n := nat_of_ascii c in
  (Nat.leb 65 n && Nat.leb n 90) || (Nat.leb 97 n && Nat.leb n 122)
  || (Nat.leb 48 n && Nat.leb n 57) || Nat.eqb n 95.

(** The identifier collected so far, if any, becomes a token. *)
Definition flush (word : string) : list token :=
  match word with
  | EmptyString => []
  | _ => [Kident word]
  end.

(** Maximal runs of identifier characters are identifiers, blanks separate,
    every other character is a punctuator of its own. *)
Fixpoint lex_chars (word : string) (s : string) : list token :=
  match s with
  | EmptyString => flush word
  | String c rest =>
      if is_ident_char c
      then lex_chars (word ++ String c EmptyString) rest
      else flush word
             ++ (if is_space c then [] else [Kpunct c])
             ++ lex_chars EmptyString rest
  end.

Fixpoint skip_spaces (s : string) : string :=
  match s with
  | String c rest => if is_space c then skip_spaces rest else s
  | EmptyString => s
  end.

Fixpoint take_until (stop : ascii) (s : string) : option (string * string) :=
  match s with
  | EmptyString => None
  | String c rest =>
      if Ascii.eqb c stop then Some (EmptyString, rest)
      else match take_until stop rest with
           | Some (a, b) => Some (String c a, b)
           | None => None
           end
  end.

Definition strip_prefix (p s : string) : option string :=
  if prefix p s
  then Some (substring (String.length p) (String.length s - String.length p) s)
  else None.

Definition double_quote : ascii := ascii_of_nat 34.

(** What follows the [#] of a preprocessor line.  Only [#include] is
    understood; any other directive is refused. *)
Definition lex_directive (s : string) : option token :=
  match strip_prefix "include" (skip_spaces s) with
  | None => None
  | Some r =>
      match skip_spaces r with
      | String c r' =>
          let closing :=
            if Ascii.eqb c "<"%char then Some (true, ">"%char)
            else if Ascii.eqb c double_quote then Some (false, double_quote)
            else None in
          match closing with
          | None => None
          | Some (system, stop) =>
              match take_until stop r' with
              | Some (file, tail) =>
                  match skip_spaces tail with
                  | EmptyString => Some (Kinclude system file)
                  | _ => None
                  end
              | None => None
              end
          end
      | EmptyString => None
      end
  end.

Definition lex_line (l : string) : option (list token) :=
  match skip_spaces l with
  | String c r =>
      if Ascii.eqb c "#"%char
      then option_map (fun t => [t]) (lex_directive r)
      else Some (lex_chars EmptyString l)
  | EmptyString => Some []
  end.

Fixpoint lex (ls : list string) : option (list token) :=
  match ls with
  | [] => Some []
  | l :: rest =>
      match lex_line l, lex rest with
      | Some a, Some b => Some (a ++ b)
      | _, _ => None
      end
  end.

End Lexer.

(** ** From tokens to declarations *)

Module Parser.

Notation "'do' x <- e ; k" :=
  (match e with Some x => k | None => None end)
  (at level 10, x pattern, e at level 100, k at level 200,
   only parsing).

Definition is_punct (c : ascii) (t : token) : bool :=
  match t with
  | Kpunct d => Ascii.eqb c d
  | _ => false
  end.

(** The rest of the tokens once the punctuator [c] has been read. *)
Definition expect (c : ascii) (ts : list token) : option (list token) :=
  match ts with
  | t :: rest => if is_punct c t then Some rest else None
  | [] => None
  end.

Definition expect_ident (ts : list token) : option (string * list token) :=
  match ts with
  | Kident n :: rest => Some (n, rest)
  | _ => None
  end.

(** Words that cannot stand for a type. *)
Definition reserved (k : string) : bool :=
  (k =? "const") || (k =? "typedef") || (k =? "extern") || (k =? "static")
  || (k =? "union") || (k =? "return").

Definition parse_base (ts : list token) : option (ctype * list token) :=
  do (k, rest) <- expect_ident ts;
  if k =? "void" then Some (Tvoid, rest)
  else if k =? "char" then Some (Tchar, rest)
  else if k =? "int" then Some (Tint, rest)
  else if k =? "struct" then
    do (tag, rest') <- expect_ident rest; Some (Tstruct tag, rest')
  else if k =? "enum" then
    do (tag, rest') <- expect_ident rest; Some (Tenum tag, rest')
  else if reserved k then None
  else Some (Tnamed k, rest).

(** A type specifier with an optional [const] before or after it. *)
Definition parse_spec (ts : list token) : option (ctype * list token) :=
  match ts with
  | Kident k :: rest =>
      if k =? "const" then
        do (b, rest') <- parse_base rest; Some (Tconst b, rest')
      else
        do (b, rest') <- parse_base ts;
        match rest' with
        | Kident k' :: rest'' =>
            if k' =? "const" then Some (Tconst b, rest'') else Some (b, rest')
        | _ => Some (b, rest')
        end
  | _ => None
  end.

Fixpoint parse_stars (t : ctype) (ts : list token) : ctype * list token :=
  match ts with
  | tok :: rest =>
      if is_punct "*" tok then parse_stars (Tpointer t) rest else (t, ts)
  | [] => (t, ts)
  end.

(** The parameter list after its opening parenthesis: [()] and [(void)]
    declare no parameter, anything else is read by [nonempty]. *)
Definition param_list_with
    (nonempty : list token -> option (list param * list token))
    (ts : list token) : option (list param * list token) :=
  match ts with
  | tok :: r =>
      if is_punct ")" tok then Some ([], r)
      else match tok, r with
           | Kident k, tok' :: r' =>
               if (k =? "void") && is_punct ")" tok' then Some ([], r')
               else nonempty ts
           | _, _ => nonempty ts
           end
  | [] => None
  end.

Definition optional_ident (ts : list token) : option string * list token :=
  match ts with
  | Kident n :: r => (Some n, r)
  | _ => (None, ts)
  end.

(** [parse_param]: one parameter or field, that is a specifier, stars, and
    then a name, nothing, or a parenthesised star with an optional name
    followed by a parameter list (a pointer to function).
    [parse_params]: parameters separated by commas, up to and including
    the closing parenthesis. *)
Fixpoint parse_param (fuel : nat) (ts : list token)
  : option (param * list token) :=
  match fuel with
  | 0 => None
  | S fuel' =>
      do (b, r) <- parse_spec ts;
      let (t, r0) := parse_stars b r in
      match r0 with
      | Kident n :: r1 => Some (mkParam t (Some n), r1)
      | _ =>
          match expect "(" r0 with
          | None => Some (mkParam t None, r0)
          | Some a =>
              do a1 <- expect "*" a;
              let (name, a2) := optional_ident a1 in
              do a3 <- expect ")" a2;
              do a4 <- expect "(" a3;
              do (ps, a5) <- param_list_with (parse_params fuel') a4;
              Some (mkParam (Tpointer (Tfunction t (map p_type ps))) name, a5)
          end
      end
  end
with parse_params (fuel : nat) (ts : list token)
  : option (list param * list token) :=
  match fuel with
  | 0 => None
  | S fuel' =>
      do (p, r) <- parse_param fuel' ts;
      match r with
      | tok :: r' =>
          if is_punct ")" tok then Some ([p], r')
          else if is_punct "," tok then
            do (ps, r'') <- parse_params fuel' r'; Some (p :: ps, r'')
          else None
      | [] => None
      end
  end.

Definition parse_param_list (ts : list token)
  : option (list param * list token) :=
  param_list_with (parse_params (S (List.length ts))) ts.

(** What a declarator, read after its specifier, declares: an object (or
    typedef name) of some type, or a function. *)
Inductive declared : Type :=
| Object (ty : ctype) (name : string)
| Function (ret : ctype) (name : string) (params : list param).

(** Stars, then a name, or a name and a parameter list, or a
    parenthesised star and name followed by a parameter list (a pointer to
    function). *)
Definition parse_declarator (b : ctype) (ts : list token)
  : option (declared * list token) :=
  let (t, r) := parse_stars b ts in
  match r with
  | Kident n :: r1 =>
      match expect "(" r1 with
      | Some r2 =>
          do (ps, r3) <- parse_param_list r2; Some (Function t n ps, r3)
      | None => Some (Object t n, r1)
      end
  | _ =>
      do r1 <- expect "(" r;
      do r2 <- expect "*" r1;
      do (n, r3) <- expect_ident r2;
      do r4 <- expect ")" r3;
      do r5 <- expect "(" r4;
      do (ps, r6) <- parse_param_list r5;
      Some (Object (Tpointer (Tfunction t (map p_type ps))) n, r6)
  end.

(** The tokens of a function body, after its opening brace, up to the
    brace that closes it. *)
Fixpoint take_body (depth : nat) (ts : list token)
  : option (list token * list token) :=
  match ts with
  | [] => None
  | t :: r =>
      if is_punct "}" t then
        match depth with
        | 0 => Some ([], r)
        | S d => do (b, r') <- take_body d r; Some (t :: b, r')
        end
      else if is_punct "{" t then
        do (b, r') <- take_body (S depth) r; Some (t :: b, r')
      else
        do (b, r') <- take_body depth r; Some (t :: b, r')
  end.

(** Fields of a struct, each closed by a semicolon, up to the closing
    brace. *)
Fixpoint parse_fields (fuel : nat) (ts : list token)
  : option (list param * list token) :=
  match fuel with
  | 0 => None
  | S fuel' =>
      match expect "}" ts with
      | Some r => Some ([], r)
      | None =>
          do (f, r) <- parse_param (S (List.length ts)) ts;
          do r' <- expect ";" r;
          do (fs, r'') <- parse_fields fuel' r';
          Some (f :: fs, r'')
      end
  end.

(** Enumerators separated by commas, up to the closing brace. *)
Fixpoint parse_enumerators (fuel : nat) (ts : list token)
  : option (list string * list token) :=
  match fuel with
  | 0 => None
  | S fuel' =>
      do (n, r) <- expect_ident ts;
      match r with
      | tok :: r' =>
          if is_punct "}" tok then Some ([n], r')
          else if is_punct "," tok then
            do (ns, r'') <- parse_enumerators fuel' r'; Some (n :: ns, r'')
          else None
      | [] => None
      end
  end.

(** Is this the start of [struct tag {] or [enum tag {]? *)
Definition opens_definition (ts : list token) : bool :=
  match ts with
  | Kident _ :: tok :: _ => is_punct "{" tok
  | _ => false
  end.

(** One file-scope declaration. *)
Definition parse_decl (ts : list token) : option (decl * list token) :=
  match ts with
  | Kinclude system file :: r => Some (Dinclude system file, r)
  | Kident k :: r =>
      if k =? "typedef" then
        do (b, r1) <- parse_spec r;
        do (d, r2) <- parse_declarator b r1;
        do r3 <- expect ";" r2;
        match d with
        | Object ty n => Some (Dtypedef n ty, r3)
        | Function _ _ _ => None
        end
      else if (k =? "struct") && opens_definition r then
        do (tag, r1) <- expect_ident r;
        do r2 <- expect "{" r1;
        do (fs, r3) <- parse_fields (List.length r2) r2;
        do r4 <- expect ";" r3;
        Some (Dstruct tag fs, r4)
      else if (k =? "enum") && opens_definition r then
        do (tag, r1) <- expect_ident r;
        do r2 <- expect "{" r1;
        do (ns, r3) <- parse_enumerators (List.length r2) r2;
        do r4 <- expect ";" r3;
        Some (Denum tag ns, r4)
      else
        do (b, r1) <- parse_spec ts;
        do (d, r2) <- parse_declarator b r1;
        match d with
        | Object ty n =>
            do r3 <- expect ";" r2; Some (Dvariable ty n, r3)
        | Function ret n ps =>
            match expect ";" r2 with
            | Some r3 => Some (Dfunction ret n ps None, r3)
            | None =>
                do r3 <- expect "{" r2;
                do (body, r4) <- take_body 0 r3;
                Some (Dfunction ret n ps (Some body), r4)
            end
        end
  | _ => None
  end.

Fixpoint parse_decls (fuel : nat) (ts : list token) : option header :=
  match ts with
  | [] => Some []
  | _ =>
      match fuel with
      | 0 => None
      | S fuel' =>
          do (d, r) <- parse_decl ts;
          do ds <- parse_decls fuel' r;
          Some (d :: ds)
      end
  end.

(** A header, from its lines.  Every declaration read takes at least one
    token ([ParserFacts.parse_decl_shorter] below), so the number of
    tokens is fuel enough. *)
Definition parse_header (lines : list string) : option header :=
  do ts <- Lexer.lex lines;
  parse_decls (List.length ts) ts.

End Parser.

(** ** What a header declares *)

Module Header.

(** Is the name [n] one of [scope]? *)
Definition in_scope (scope : list string) (n : string) : bool :=
  existsb (String.eqb n) scope.

Definition includes (h : header) : list string :=
  flat_map (fun d => match d with Dinclude _ f => [f] | _ => [] end) h.

Definition typedef_names (h : header) : list string :=
  flat_map (fun d => match d with Dtypedef n _ => [n] | _ => [] end) h.

Definition function_names (h : header) : list string :=
  flat_map (fun d => match d with Dfunction _ n _ _ => [n] | _ => [] end) h.

Definition variable_names (h : header) : list string :=
  flat_map (fun d => match d with Dvariable _ n => [n] | _ => [] end) h.

Definition struct_tags (h : header) : list string :=
  flat_map (fun d => match d with Dstruct t _ => [t] | _ => [] end) h.

Definition enum_tags (h : header) : list string :=
  flat_map (fun d => match d with Denum t _ => [t] | _ => [] end) h.

(** The functions the header defines, that is gives a body to. *)
Definition defined_functions (h : header) : list string :=
  flat_map (fun d => match d with
                     | Dfunction _ n _ (Some _) => [n]
                     | _ => []
                     end) h.

(** The parts of a function declaration, as written. *)
Definition decl_ret (d : decl) : option ctype :=
  match d with
  | Dfunction r _ _ _ => Some r
  | _ => None
  end.

Definition decl_params (d : decl) : list param :=
  match d with
  | Dfunction _ _ ps _ => ps
  | _ => []
  end.

Definition decl_body (d : decl) : option (list token) :=
  match d with
  | Dfunction _ _ _ b => b
  | _ => None
  end.

(** The names the header itself gives a type to. *)
Definition declared_types (h : header) : list string :=
  typedef_names h ++ struct_tags h ++ enum_tags h.

(** The declaration of the function called [name], as written. *)
Fixpoint lookup_function (name : string) (h : header) : option decl :=
  match h with
  | [] => None
  | Dfunction r n ps b :: rest =>
      if n =? name then Some (Dfunction r n ps b)
      else lookup_function name rest
  | _ :: rest => lookup_function name rest
  end.

Fixpoint lookup_typedef (name : string) (h : header) : option ctype :=
  match h with
  | [] => None
  | Dtypedef n ty :: rest =>
      if n =? name then Some ty else lookup_typedef name rest
  | _ :: rest => lookup_typedef name rest
  end.

(** *** Typedef names are synonyms *)

Definition typedef_env : Type := list (string * ctype).

Fixpoint assoc (name : string) (env : typedef_env) : option ctype :=
  match env with
  | [] => None
  | (n, ty) :: rest => if n =? name then Some ty else assoc name rest
  end.

(** A type with every typedef name of [env] replaced by the type it
    stands for; a name [env] does not know stays as it is. *)
Fixpoint expand (env : typedef_env) (t : ctype) : ctype :=
  match t with
  | Tnamed n => match assoc n env with Some u => u | None => t end
  | Tconst u => Tconst (expand env u)
  | Tpointer u => Tpointer (expand env u)
  | Tfunction r ps => Tfunction (expand env r) (map (expand env) ps)
  | _ => t
  end.

(** The type of a function: what it returns and what it takes, parameter
    names and typedef spellings set aside. *)
Record signature : Type := mkSignature {
  s_ret : ctype;
  s_params : list ctype
}.

(** The signature of each function of the header, in order.  A typedef is
    visible from its declaration on, and stands for its type as expanded
    there. *)
Fixpoint signatures (env : typedef_env) (h : header)
  : list (string * signature) :=
  match h with
  | [] => []
  | Dtypedef n ty :: rest => signatures ((n, expand env ty) :: env) rest
  | Dfunction r n ps _ :: rest =>
      (n, mkSignature (expand env r) (map (fun p => expand env (p_type p)) ps))
        :: signatures env rest
  | _ :: rest => signatures env rest
  end.

Fixpoint signature_of (name : string) (sigs : list (string * signature))
  : option signature :=
  match sigs with
  | [] => None
  | (n, s) :: rest => if n =? name then Some s else signature_of name rest
  end.

(** *** Names a header needs from its surroundings *)

(** The names a type uses as type specifiers. *)
Fixpoint named_types (t : ctype) : list string :=
  match t with
  | Tnamed n => [n]
  | Tconst u | Tpointer u => named_types u
  | Tfunction r ps => named_types r ++ flat_map named_types ps
  | _ => []
  end.

Definition missing (scope : list string) (t : ctype) : list string :=
  filter (fun n => negb (in_scope scope n)) (named_types t).

(** The type names the header uses at a point where nothing has declared
    them.  [provides] tells which type names an included file declares and
    [scope] which ones the translation unit has declared before it includes
    the header. *)
Fixpoint undeclared (provides : string -> list string) (scope : list string)
    (h : header) : list string :=
  match h with
  | [] => []
  | Dinclude _ f :: rest => undeclared provides (scope ++ provides f) rest
  | Dtypedef n ty :: rest =>
      missing scope ty ++ undeclared provides (n :: scope) rest
  | Dfunction r _ ps _ :: rest =>
      missing scope r ++ flat_map (fun p => missing scope (p_type p)) ps
        ++ undeclared provides scope rest
  | Dvariable ty _ :: rest =>
      missing scope ty ++ undeclared provides scope rest
  | Dstruct _ fs :: rest =>
      flat_map (fun p => missing scope (p_type p)) fs
        ++ undeclared provides scope rest
  | Denum _ _ :: rest => undeclared provides scope rest
  end.

(** The header compiles, as far as type names go. *)
Definition compiles (provides : string -> list string) (scope : list string)
    (h : header) : bool :=
  match undeclared provides scope h with
  | [] => true
  | _ :: _ => false
  end.

(** *** Ways a function hands a result back *)

(** The type names the included files bring. *)
Definition included_types (provides : string -> list string) (h : header)
  : list string :=
  flat_map provides (includes h).

(** Can a value be stored into an object of type [t]?  Not when the type is
    [void], a function or [const], nor when it is a struct without
    definition ([structs] are the defined ones) or a name that nothing
    declares ([names] are the names declared where the header is read,
    by the translation unit or by an included file; typedef names of the
    header have been expanded before). *)
Definition assignable (structs names : list string) (t : ctype) : bool :=
  match t with
  | Tchar | Tint | Tenum _ | Tpointer _ => true
  | Tstruct tag => in_scope structs tag
  | Tnamed n => in_scope names n
  | Tvoid | Tconst _ | Tfunction _ _ => false
  end.

(** A way from a function back to its caller: the value it returns, an
    object of the caller it can store into through a parameter, or a
    function of the caller it can call through a parameter, with the
    argument types it passes and the type it gets back. *)
Inductive channel : Type :=
| Returned (function : string) (ty : ctype)
| StoredThrough (function : string) (parameter : option string) (ty : ctype)
| CalledBack (function : string) (parameter : option string)
             (args : list ctype) (ret : ctype).

(** The ways back that the parameters of [f] open: a pointer to function
    can be called, a pointer to an object that can be stored into can be
    written through. *)
Definition out_parameters (structs names : list string) (env : typedef_env)
    (f : string) (ps : list param) : list channel :=
  flat_map (fun p =>
              match expand env (p_type p) with
              | Tpointer (Tfunction r args) =>
                  [CalledBack f (p_name p) args r]
              | Tpointer u =>
                  if assignable structs names u
                  then [StoredThrough f (p_name p) (Tpointer u)]
                  else []
              | _ => []
              end) ps.

(** Every way a function of the header can give its caller something, and
    with it the news of a failure: a return value, a parameter that points
    to an object the function can store into, or a parameter that points to
    a function it can call. *)
Fixpoint result_channels (structs names : list string) (env : typedef_env)
    (h : header) : list channel :=
  match h with
  | [] => []
  | Dtypedef n ty :: rest =>
      result_channels structs names ((n, expand env ty) :: env) rest
  | Dfunction r n ps _ :: rest =>
      (match expand env r with
       | Tvoid => []
       | ty => [Returned n ty]
       end)
        ++ out_parameters structs names env n ps
        ++ result_channels structs names env rest
  | _ :: rest => result_channels structs names env rest
  end.

(** The types of the values that cross the interface, parameters and
    results, with typedef names expanded; [void] results carry no value. *)
Definition value_types (h : header) : list ctype :=
  flat_map (fun '(_, s) =>
              (match s_ret s with Tvoid => [] | ty => [ty] end)
                ++ s_params s)
           (signatures [] h).

(** The identifiers of a token list. *)
Definition identifiers (ts : list token) : list string :=
  flat_map (fun t => match t with Kident n => [n] | _ => [] end) ts.

Definition punctuators (ts : list token) : list ascii :=
  flat_map (fun t => match t with Kpunct c => [c] | _ => [] end) ts.

End Header.

(** ** The header [gears.h] *)

Module Gears.
Import Header.

(** The ten lines of [gears.h], in order; the file ends without a final
    newline. *)
Definition gears_h_lines : list string :=
  [ "#include <stdarg.h>"
  ; "#include <stdbool.h>"
  ; "#include <stdint.h>"
  ; "#include <stdlib.h>"
  ; ""
  ; "typedef void (*Callback)(const char*);"
  ; ""
  ; "void start(NSObject *view, const char *path);"
  ; ""
  ; "void devServer(Callback callback);" ].

Definition const_char_ptr : ctype := Tpointer (Tconst Tchar).

(** Line 6: [Callback] names the type pointer to function taking a
    [const char*] and returning nothing. *)
Definition Callback : ctype := Tpointer (Tfunction Tvoid [const_char_ptr]).

(** Line 8. *)
Definition start : decl :=
  Dfunction Tvoid "start"
    [ mkParam (Tpointer (Tnamed "NSObject")) (Some "view")
    ; mkParam const_char_ptr (Some "path") ]
    None.

(** Line 10. *)
Definition devServer : decl :=
  Dfunction Tvoid "devServer"
    [ mkParam (Tnamed "Callback") (Some "callback") ]
    None.

(** The declarations of the header, in order. *)
Definition gears_h : header :=
  [ Dinclude true "stdarg.h"
  ; Dinclude true "stdbool.h"
  ; Dinclude true "stdint.h"
  ; Dinclude true "stdlib.h"
  ; Dtypedef "Callback" Callback
  ; start
  ; devServer ].

(** The tokens of the header; lexing its lines does not fail. *)
Definition gears_h_tokens : list token :=
  match Lexer.lex gears_h_lines with
  | Some ts => ts
  | None => []
  end.

(** *** The interface as the specification spells it *)

(** Section 6 of the specification gives the interface as these two
    lines. *)
Definition spec_interface_lines : list string :=
  [ "void start(ViewHandle view, const char *path);"
  ; "void devServer(void (*callback)(const char *));" ].

Definition spec_start : decl :=
  Dfunction Tvoid "start"
    [ mkParam (Tnamed "ViewHandle") (Some "view")
    ; mkParam const_char_ptr (Some "path") ]
    None.

Definition spec_devServer : decl :=
  Dfunction Tvoid "devServer"
    [ mkParam (Tpointer (Tfunction Tvoid [const_char_ptr])) (Some "callback") ]
    None.

Definition spec_interface : header := [spec_start; spec_devServer].

(** *** What the four included files declare *)

Definition sized (prefix : string) : list string :=
  map (fun bits => (prefix ++ bits ++ "_t")%string) ["8"; "16"; "32"; "64"].

(** The type names ISO C11 gives to the four headers that [gears.h]
    includes (clauses 7.16, 7.18, 7.20 and 7.22); [bool] is a macro for the
    keyword [_Bool] and is counted as a type name.  Every other file
    provides nothing. *)
Definition c11_types (file : string) : list string :=
  if file =? "stdarg.h" then ["va_list"]
  else if file =? "stdbool.h" then ["bool"]
  else if file =? "stdint.h" then
    sized "int" ++ sized "uint"
      ++ sized "int_least" ++ sized "uint_least"
      ++ sized "int_fast" ++ sized "uint_fast"
      ++ ["intptr_t"; "uintptr_t"; "intmax_t"; "uintmax_t"]
  else if file =? "stdlib.h" then
    ["size_t"; "wchar_t"; "div_t"; "ldiv_t"; "lldiv_t"]
  else [].

End Gears.
Import Header Gears.


(** ** Declaring a name again *)

Module Redeclaration.
Import Header.

Fixpoint ctype_eqb (a b : ctype) : bool :=
  match a, b with
  | Tvoid, Tvoid | Tchar, Tchar | Tint, Tint => true
  | Tnamed x, Tnamed y | Tstruct x, Tstruct y | Tenum x, Tenum y =>
      String.eqb x y
  | Tconst x, Tconst y | Tpointer x, Tpointer y => ctype_eqb x y
  | Tfunction r ps, Tfunction r' ps' =>
      ctype_eqb r r' &&
      (fix all2 (l l' : list ctype) : bool :=
         match l, l' with
         | [], [] => true
         | x :: k, y :: k' => ctype_eqb x y && all2 k k'
         | _, _ => false
         end) ps ps'
  | _, _ => false
  end.

Definition signature_eqb (a b : signature) : bool :=
  ctype_eqb (Tfunction (s_ret a) (s_params a))
            (Tfunction (s_ret b) (s_params b)).

(** What an ordinary identifier has been declared as at file scope. *)
Inductive entity : Type :=
| Etypedef (ty : ctype)
| Efunction (s : signature) (defined : bool)
| Evariable (ty : ctype)
| Eenumerator.

(** The declarations in force at a point of a translation unit: the
    ordinary identifiers, latest first, and the struct and enum tags that
    have a definition. *)
Record environment : Type := mkEnvironment {
  ordinary : list (string * entity);
  tags : list string
}.

Definition nothing_declared : environment := mkEnvironment [] [].

Fixpoint lookup (name : string) (o : list (string * entity))
  : option entity :=
  match o with
  | [] => None
  | (n, e) :: rest => if n =? name then Some e else lookup name rest
  end.

Definition typedefs_of (o : list (string * entity)) : typedef_env :=
  flat_map (fun '(n, e) => match e with
                           | Etypedef ty => [(n, ty)]
                           | _ => []
                           end) o.

Definition bind (st : environment) (n : string) (e : entity) : environment :=
  mkEnvironment ((n, e) :: ordinary st) (tags st).

Fixpoint declare_enumerators (st : environment) (es : list string)
  : option environment :=
  match es with
  | [] => Some st
  | e :: rest =>
      match lookup e (ordinary st) with
      | Some _ => None
      | None => declare_enumerators (bind st e Eenumerator) rest
      end
  end.

(** One more file-scope declaration, by the rules of C11 6.7: a typedef
    name may be declared again for the same type, a function or an object
    again with the same type, a function may have one definition, a struct
    or enum one definition of its content, an enumerator one declaration,
    and a name keeps its kind.  [None] is a conflict. *)
Definition declare (st : environment) (d : decl) : option environment :=
  let env := typedefs_of (ordinary st) in
  match d with
  | Dinclude _ _ => Some st
  | Dtypedef n ty =>
      let t := expand env ty in
      match lookup n (ordinary st) with
      | None => Some (bind st n (Etypedef t))
      | Some (Etypedef u) => if ctype_eqb u t then Some st else None
      | Some _ => None
      end
  | Dfunction r n ps body =>
      let s := mkSignature (expand env r)
                 (map (fun p => expand env (p_type p)) ps) in
      match lookup n (ordinary st), body with
      | None, None => Some (bind st n (Efunction s false))
      | None, Some _ => Some (bind st n (Efunction s true))
      | Some (Efunction s' defined), None =>
          if signature_eqb s' s then Some st else None
      | Some (Efunction s' defined), Some _ =>
          if signature_eqb s' s && negb defined
          then Some (bind st n (Efunction s true))
          else None
      | Some _, _ => None
      end
  | Dvariable ty n =>
      let t := expand env ty in
      match lookup n (ordinary st) with
      | None => Some (bind st n (Evariable t))
      | Some (Evariable u) => if ctype_eqb u t then Some st else None
      | Some _ => None
      end
  | Dstruct tag _ =>
      if in_scope (tags st) tag then None
      else Some (mkEnvironment (ordinary st) (tag :: tags st))
  | Denum tag es =>
      if in_scope (tags st) tag then None
      else declare_enumerators
             (mkEnvironment (ordinary st) (tag :: tags st)) es
  end.

Fixpoint declare_all (st : environment) (h : header) : option environment :=
  match h with
  | [] => Some st
  | d :: rest =>
      match declare st d with
      | Some st' => declare_all st' rest
      | None => None
      end
  end.

(** The declarations a translation unit sees when it includes the header
    [n] times; nothing in the header keeps a later inclusion from being
    read unless the header guards itself. *)
Definition included (n : nat) (h : header) : header :=
  concat (repeat h n).

(** The preprocessor lines of a file. *)
Definition directive_lines (lines : list string) : list string :=
  filter (fun l => match Lexer.skip_spaces l with
                   | String c _ => Ascii.eqb c "#"%char
                   | EmptyString => false
                   end) lines.

(** The header without its [#include] lines. *)
Definition without_includes (h : header) : header :=
  filter (fun d => match d with Dinclude _ _ => false | _ => true end) h.

End Redeclaration.
Import Redeclaration.

(** * Properties *)

(** ** The embedding is the header *)

(** Reading the ten lines of [gears.h] gives the declarations [gears_h]. *)
Lemma gears_h_parses : Parser.parse_header gears_h_lines = Some gears_h.
Proof. vm_compute. reflexivity. Qed.

Lemma gears_h_lexes : Lexer.lex gears_h_lines = Some gears_h_tokens.
Proof. vm_compute. reflexivity. Qed.

(** Reading the two lines of the specification gives [spec_interface]. *)
Lemma spec_interface_parses :
  Parser.parse_header spec_interface_lines = Some spec_interface.
Proof. vm_compute. reflexivity. Qed.

(** The reader does tell a definition from a declaration, and sees
    variables, structs and enums where a header has them. *)
Example parse_other_header :
  Parser.parse_header
    [ "int counter;"
    ; "struct state { int fd; const char *url; };"
    ; "enum status { OK, FAILED };"
    ; "int stop(void) { return counter; }"
    ; "int poll(struct state *s, int *error);" ]
  = Some
      [ Dvariable Tint "counter"
      ; Dstruct "state" [ mkParam Tint (Some "fd")
                        ; mkParam const_char_ptr (Some "url") ]
      ; Denum "status" ["OK"; "FAILED"]
      ; Dfunction Tint "stop" []
          (Some [Kident "return"; Kident "counter"; Kpunct ";"])
      ; Dfunction Tint "poll"
          [ mkParam (Tpointer (Tstruct "state")) (Some "s")
          ; mkParam (Tpointer Tint) (Some "error") ]
          None ].
Proof. vm_compute. reflexivity. Qed.

(** On such a header: both functions return an [int], and [poll] can
    store through [s], [error] and [n], not through [h] and [o], whose types
    have no definition, and can call [done]. *)
Example result_channels_other_header :
  forall h,
    Parser.parse_header
      [ "#include <stdlib.h>"
      ; "struct state { int fd; const char *url; };"
      ; "int stop(void) { return counter; }"
      ; "int poll(struct state *s, int *error, struct hidden *h,"
      ; "         size_t *n, NSObject *o, void (*done)(int));" ]
    = Some h ->
    result_channels (struct_tags h) (included_types c11_types h) [] h
    = [ Returned "stop" Tint
      ; Returned "poll" Tint
      ; StoredThrough "poll" (Some "s") (Tpointer (Tstruct "state"))
      ; StoredThrough "poll" (Some "error") (Tpointer Tint)
      ; StoredThrough "poll" (Some "n") (Tpointer (Tnamed "size_t"))
      ; CalledBack "poll" (Some "done") [Tint] Tvoid ]
    /\ defined_functions h = ["stop"].
Proof. intros h H. vm_compute in H. injection H as <-. split; reflexivity. Qed.

(** ** The reader always makes progress *)

Module ParserFacts.
Import Parser.

Lemma expect_length c ts r :
  expect c ts = Some r -> List.length ts = S (List.length r).
Proof.
  destruct ts as [| t ts']; cbn; [discriminate |].
  destruct (is_punct c t); [| discriminate].
  now intros [= <-].
Qed.

Lemma expect_ident_length ts n r :
  expect_ident ts = Some (n, r) -> List.length ts = S (List.length r).
Proof.
  destruct ts as [| [k | c | sys f] ts']; cbn; try discriminate.
  now intros [= _ <-].
Qed.

Lemma parse_stars_length t ts t' r :
  parse_stars t ts = (t', r) -> List.length r <= List.length ts.
Proof.
  revert t. induction ts as [| tok ts IH]; intros t; cbn.
  - now intros [= _ <-].
  - destruct (is_punct "*" tok).
    + intros H. apply IH in H. lia.
    + intros [= _ <-]. cbn. lia.
Qed.

Lemma optional_ident_length ts n r :
  optional_ident ts = (n, r) -> List.length r <= List.length ts.
Proof.
  destruct ts as [| [k | c | sys f] ts']; cbn; intros [= _ <-]; cbn; lia.
Qed.

(** Case analysis on the next test of a reader whose result is known. *)
Ltac step H :=
  match type of H with
  | context [match ?x with _ => _ end] => destruct x eqn:?
  end; try discriminate.

(** The facts above, applied wherever they fit. *)
Ltac lengths :=
  repeat match goal with
    | H : expect _ _ = Some _ |- _ => apply expect_length in H
    | H : expect_ident _ = Some _ |- _ => apply expect_ident_length in H
    | H : parse_stars _ _ = (_, _) |- _ => apply parse_stars_length in H
    | H : optional_ident _ = (_, _) |- _ => apply optional_ident_length in H
    end.

Lemma parse_base_shorter ts t r :
  parse_base ts = Some (t, r) -> List.length r < List.length ts.
Proof.
  unfold parse_base. intros H. repeat step H; injection H as _ <-;
    lengths; lia.
Qed.

Lemma parse_spec_shorter ts t r :
  parse_spec ts = Some (t, r) -> List.length r < List.length ts.
Proof.
  unfold parse_spec. intros H.
  repeat step H; injection H as _ <-;
    repeat match goal with
      | E : parse_base _ = Some _ |- _ => apply parse_base_shorter in E
      end; cbn [List.length] in *; lia.
Qed.

Lemma param_list_with_shorter nonempty :
  (forall ts ps r,
      nonempty ts = Some (ps, r) -> List.length r < List.length ts) ->
  forall ts ps r,
    param_list_with nonempty ts = Some (ps, r) ->
    List.length r < List.length ts.
Proof.
  intros Hne ts ps r H. unfold param_list_with in H.
  repeat step H;
    try (apply Hne in H; cbn [List.length] in *; lia);
    injection H as _ <-; cbn [List.length]; lia.
Qed.

Lemma parse_param_params_shorter fuel :
  (forall ts p r,
      parse_param fuel ts = Some (p, r) -> List.length r < List.length ts)
  /\ (forall ts ps r,
        parse_params fuel ts = Some (ps, r) ->
        List.length r < List.length ts).
Proof.
  induction fuel as [| fuel [IHp IHps]]; [split; discriminate |].
  split.
  - intros ts p r H. cbn [parse_param] in H.
    repeat step H;
      repeat match goal with
        | E : parse_spec _ = Some _ |- _ => apply parse_spec_shorter in E
        | E : param_list_with _ _ = Some _ |- _ =>
            apply (param_list_with_shorter _ IHps) in E
        end;
      injection H as _ <-; lengths; cbn [List.length] in *; lia.
  - intros ts ps r H. cbn [parse_params] in H.
    repeat step H;
      repeat match goal with
        | E : parse_param _ _ = Some _ |- _ => apply IHp in E
        | E : parse_params _ _ = Some _ |- _ => apply IHps in E
        end;
      injection H as _ <-; cbn [List.length] in *; lia.
Qed.

Lemma parse_param_shorter fuel ts p r :
  parse_param fuel ts = Some (p, r) -> List.length r < List.length ts.
Proof. apply parse_param_params_shorter. Qed.

Lemma parse_param_list_shorter ts ps r :
  parse_param_list ts = Some (ps, r) -> List.length r < List.length ts.
Proof.
  unfold parse_param_list. apply param_list_with_shorter.
  exact (proj2 (parse_param_params_shorter _)).
Qed.

Lemma parse_declarator_shorter b ts d r :
  parse_declarator b ts = Some (d, r) -> List.length r < List.length ts.
Proof.
  unfold parse_declarator. intros H.
  repeat step H;
    repeat match goal with
      | E : parse_param_list _ = Some _ |- _ =>
          apply parse_param_list_shorter in E
      end;
    injection H as _ <-; lengths; cbn [List.length] in *; lia.
Qed.

Lemma take_body_shorter ts :
  forall depth b r,
    take_body depth ts = Some (b, r) -> List.length r < List.length ts.
Proof.
  induction ts as [| t ts IH]; intros depth b r H;
    cbn [take_body] in H; [discriminate |].
  repeat step H;
    repeat match goal with
      | E : take_body _ _ = Some _ |- _ => apply IH in E
      end;
    injection H as _ <-; cbn [List.length]; lia.
Qed.

Lemma parse_fields_shorter fuel :
  forall ts fs r,
    parse_fields fuel ts = Some (fs, r) -> List.length r < List.length ts.
Proof.
  induction fuel as [| fuel IH]; intros ts fs r H;
    cbn [parse_fields] in H; [discriminate |].
  repeat step H;
    repeat match goal with
      | E : parse_param _ _ = Some _ |- _ => apply parse_param_shorter in E
      | E : parse_fields _ _ = Some _ |- _ => apply IH in E
      end;
    injection H as _ <-; lengths; lia.
Qed.

Lemma parse_enumerators_shorter fuel :
  forall ts ns r,
    parse_enumerators fuel ts = Some (ns, r) ->
    List.length r < List.length ts.
Proof.
  induction fuel as [| fuel IH]; intros ts ns r H;
    cbn [parse_enumerators] in H; [discriminate |].
  repeat step H;
    repeat match goal with
      | E : parse_enumerators _ _ = Some _ |- _ => apply IH in E
      end;
    injection H as _ <-; lengths; cbn [List.length] in *; lia.
Qed.

(** Every declaration read takes at least one token. *)
Lemma parse_decl_shorter ts d r :
  parse_decl ts = Some (d, r) -> List.length r < List.length ts.
Proof.
  unfold parse_decl. intros H.
  repeat step H;
    repeat match goal with
      | E : parse_spec _ = Some _ |- _ => apply parse_spec_shorter in E
      | E : parse_declarator _ _ = Some _ |- _ =>
          apply parse_declarator_shorter in E
      | E : parse_fields _ _ = Some _ |- _ => apply parse_fields_shorter in E
      | E : parse_enumerators _ _ = Some _ |- _ =>
          apply parse_enumerators_shorter in E
      | E : take_body _ _ = Some _ |- _ => apply take_body_shorter in E
      end;
    injection H as _ <-; lengths; cbn [List.length] in *; lia.
Qed.

(** So the number of tokens is fuel enough for [parse_decls]: more fuel
    than that never changes its answer. *)
Lemma parse_decls_fuel :
  forall fuel fuel' ts,
    List.length ts <= fuel -> List.length ts <= fuel' ->
    parse_decls fuel ts = parse_decls fuel' ts.
Proof.
  induction fuel as [| fuel IH]; intros fuel' ts Hf Hf'.
  - destruct ts; [now destruct fuel' | cbn in Hf; lia].
  - destruct ts as [| t ts]; [now destruct fuel' |].
    destruct fuel' as [| fuel']; [cbn in Hf'; lia |].
    cbn [parse_decls].
    destruct (parse_decl (t :: ts)) as [[d r] |] eqn:E; [| reflexivity].
    apply parse_decl_shorter in E.
    rewrite (IH fuel' r) by lia. reflexivity.
Qed.

End ParserFacts.

(** ** Helper lemmas *)

Lemma in_scope_In (scope : list string) (n : string) :
  in_scope scope n = true <-> In n scope.
Proof.
  unfold in_scope. rewrite existsb_exists. split.
  - intros [x [Hx Heq]]. apply String.eqb_eq in Heq. now subst.
  - intros H. exists n. split; [assumption | apply String.eqb_refl].
Qed.

Lemma in_scope_app (a b : list string) (n : string) :
  in_scope (a ++ b) n = in_scope a n || in_scope b n.
Proof. unfold in_scope. apply existsb_app. Qed.

(** ** Type names [gears.h] takes from its surroundings *)

Section Surroundings.

(** The type names each included file declares. *)
Variable provides : string -> list string.

(** Whatever the included files declare, the only name the header can be
    missing is [NSObject], and it misses it unless the scope has it by the
    time line 8 is reached. *)
Lemma gears_h_undeclared (scope : list string) :
  undeclared provides scope gears_h
  = if in_scope
         ((((scope ++ provides "stdarg.h") ++ provides "stdbool.h")
             ++ provides "stdint.h") ++ provides "stdlib.h")
         "NSObject"
    then [] else ["NSObject"].
Proof.
  cbn [undeclared gears_h start devServer Callback const_char_ptr
       missing named_types flat_map filter app p_type].
  set (s := (((scope ++ _) ++ _) ++ _) ++ _).
  unfold in_scope at 1 2. cbn [existsb].
  replace ("NSObject" =? "Callback") with false by reflexivity.
  replace ("Callback" =? "Callback") with true by reflexivity.
  cbn [orb negb]. fold (in_scope s "NSObject").
  destruct (in_scope s "NSObject"); reflexivity.
Qed.

Hypothesis includes_lack_NSObject :
  forall f, In f (includes gears_h) -> ~ In "NSObject" (provides f).

Lemma gears_h_compiles_iff (scope : list string) :
  compiles provides scope gears_h = true <-> In "NSObject" scope.
Proof.
  unfold compiles. rewrite gears_h_undeclared.
  rewrite !in_scope_app.
  assert (Hno : forall f, In f (includes gears_h) ->
                          in_scope (provides f) "NSObject" = false).
  { intros f Hf. destruct (in_scope (provides f) "NSObject") eqn:E; auto.
    apply in_scope_In in E. now apply includes_lack_NSObject in E. }
  rewrite !Hno by (cbn; tauto).
  rewrite !orb_false_r.
  destruct (in_scope scope "NSObject") eqn:E.
  - apply in_scope_In in E. tauto.
  - split; [discriminate |].
    intros H. apply in_scope_In in H. congruence.
Qed.

End Surroundings.

Lemma c11_types_lack_NSObject :
  forall f, In f (includes gears_h) -> ~ In "NSObject" (c11_types f).
Proof.
  intros f Hf Hin. apply in_scope_In in Hin.
  cbn in Hf.
  destruct Hf as [<- | [<- | [<- | [<- | []]]]]; vm_compute in Hin;
    discriminate.
Qed.

(** The identifiers of the header, in the order they occur. *)
Lemma gears_h_identifiers :
  identifiers gears_h_tokens
  = [ "typedef"; "void"; "Callback"; "const"; "char"
    ; "void"; "start"; "NSObject"; "view"; "const"; "char"; "path"
    ; "void"; "devServer"; "Callback"; "callback" ].
Proof. vm_compute. reflexivity. Qed.

Lemma gears_h_punctuators :
  punctuators gears_h_tokens
  = [ "("; "*"; ")"; "("; "*"; ")"; ";"
    ; "("; "*"; ","; "*"; ")"; ";"
    ; "("; ")"; ";" ]%char.
Proof. vm_compute. reflexivity. Qed.

(** Membership in a list of string literals, decided by evaluation. *)
Ltac not_in_literals :=
  let H := fresh in
  intros H; apply in_scope_In in H; vm_compute in H; discriminate.

(** ** The claims *)

(** C1. The header exposes exactly two functions, [start] and [devServer],
    in that order; every other declaration in it is an include or the type
    alias [Callback], and it declares no object. *)
Theorem interface_is_start_and_devServer :
  function_names gears_h = ["start"; "devServer"]
  /\ lookup_function "start" gears_h = Some start
  /\ lookup_function "devServer" gears_h = Some devServer
  /\ typedef_names gears_h = ["Callback"]
  /\ variable_names gears_h = []
  /\ Forall (fun d => match d with
                      | Dinclude _ _ => True
                      | Dtypedef n _ => n = "Callback"
                      | Dfunction _ n _ _ => n = "start" \/ n = "devServer"
                      | _ => False
                      end) gears_h.
Proof.
  repeat (split; [reflexivity |]).
  unfold gears_h.
  repeat (apply Forall_cons; [cbn; auto |]).
  apply Forall_nil.
Qed.

(** C2, as stated, fails: the declaration of [start] in the header is not
    the one the specification spells, and the two do not even have the same
    signature once typedef names are expanded. *)
Lemma start_is_not_spec_start :
  ~ (lookup_function "start" gears_h = Some spec_start
     \/ signature_of "start" (signatures [] gears_h)
        = signature_of "start" (signatures [] spec_interface)).
Proof. intros [H | H]; vm_compute in H; discriminate. Qed.

(** C2, amended.  [start] is declared [void start(NSObject *view, const
    char *path)]: it returns nothing, its first parameter [view] is a
    pointer to [NSObject], a type the header uses without declaring it,
    its second parameter [path] is a pointer to [const char]; the name
    [ViewHandle] occurs nowhere in the header. *)
Theorem start_signature :
  lookup_function "start" gears_h
  = Some (Dfunction Tvoid "start"
            [ mkParam (Tpointer (Tnamed "NSObject")) (Some "view")
            ; mkParam (Tpointer (Tconst Tchar)) (Some "path") ]
            None)
  /\ signature_of "start" (signatures [] gears_h)
     = Some (mkSignature Tvoid
               [Tpointer (Tnamed "NSObject"); Tpointer (Tconst Tchar)])
  /\ ~ In "NSObject" (declared_types gears_h)
  /\ ~ In "ViewHandle" (identifiers gears_h_tokens).
Proof.
  repeat split; try reflexivity; not_in_literals.
Qed.

(** C3. [devServer] returns nothing and takes one parameter, [callback],
    whose type is pointer to function taking one [const char*] and
    returning nothing: the signature the specification spells. *)
Theorem devServer_signature :
  lookup_function "devServer" gears_h = Some devServer
  /\ decl_ret devServer = Some Tvoid
  /\ map p_name (decl_params devServer) = [Some "callback"]
  /\ signature_of "devServer" (signatures [] gears_h)
     = Some (mkSignature Tvoid
               [Tpointer (Tfunction Tvoid [Tpointer (Tconst Tchar)])])
  /\ signature_of "devServer" (signatures [] gears_h)
     = signature_of "devServer" (signatures [] spec_interface)
  /\ map p_name (decl_params devServer)
     = map p_name (decl_params spec_devServer).
Proof. repeat split; reflexivity. Qed.





(** C5. The header holds declarations only: it defines no function,
    neither [start] nor [devServer] has a body, and no brace occurs in its
    text. *)
Theorem declarations_only :
  defined_functions gears_h = []
  /\ decl_body start = None
  /\ decl_body devServer = None
  /\ Forall (fun d => decl_body d = None) gears_h
  /\ existsb (fun c => Ascii.eqb c "{" || Ascii.eqb c "}")%char
       (punctuators gears_h_tokens) = false.
Proof.
  repeat (split; [reflexivity |]). split.
  - unfold gears_h. repeat (apply Forall_cons; [reflexivity |]).
    apply Forall_nil.
  - vm_compute. reflexivity.
Qed.

(** C6. Three types of values cross the interface: a pointer to
    [NSObject], which the header leaves undeclared and so opaque, a pointer
    to [const char], and a pointer to function taking one pointer to
    [const char] and returning nothing.  The header defines no struct and
    no enum, and none of the words [struct], [enum], [union] occurs in
    it. *)
Theorem interface_value_types :
  value_types gears_h
  = [ Tpointer (Tnamed "NSObject")
    ; Tpointer (Tconst Tchar)
    ; Tpointer (Tfunction Tvoid [Tpointer (Tconst Tchar)]) ]
  /\ ~ In "NSObject" (declared_types gears_h)
  /\ struct_tags gears_h = []
  /\ enum_tags gears_h = []
  /\ existsb (fun k => in_scope ["struct"; "enum"; "union"] k)
       (identifiers gears_h_tokens) = false.
Proof.
  split; [reflexivity |]. split; [not_in_literals |].
  repeat split; vm_compute; reflexivity.
Qed.

(** C7. The header declares no object at file scope, defines no function,
    struct or enum, and the only things it names are the alias [Callback],
    the functions [start] and [devServer], the type [NSObject] and the
    parameters [view], [path] and [callback]. *)
Theorem no_state_declared :
  variable_names gears_h = []
  /\ defined_functions gears_h = []
  /\ struct_tags gears_h = []
  /\ enum_tags gears_h = []
  /\ filter (fun k => negb (in_scope ["typedef"; "void"; "const"; "char"] k))
       (nodup string_dec (identifiers gears_h_tokens))
     = [ "start"; "NSObject"; "view"; "path"; "devServer"
       ; "Callback"; "callback" ]
  /\ map p_name (decl_params start ++ decl_params devServer)
     = [Some "view"; Some "path"; Some "callback"].
Proof. repeat split; vm_compute; reflexivity. Qed.

(** C8. The first parameter of [start] has type [NSObject *].  The header
    includes four files of the C library and declares one type name,
    [Callback]; neither gives [NSObject], and [ViewHandle] is not a name of
    the header at all.  So on its own the header has exactly one
    undeclared type name, [NSObject], and it compiles exactly in a
    translation unit that has declared [NSObject] before including it. *)
Theorem start_view_is_NSObject_pointer :
  nth_error (decl_params start) 0
  = Some (mkParam (Tpointer (Tnamed "NSObject")) (Some "view"))
  /\ includes gears_h = ["stdarg.h"; "stdbool.h"; "stdint.h"; "stdlib.h"]
  /\ declared_types gears_h = ["Callback"]
  /\ Forall (fun f => in_scope (c11_types f) "NSObject" = false)
       (includes gears_h)
  /\ undeclared c11_types [] gears_h = ["NSObject"]
  /\ (forall scope,
        compiles c11_types scope gears_h = true <-> In "NSObject" scope)
  /\ in_scope (identifiers gears_h_tokens) "ViewHandle" = false.
Proof.
  repeat (split; [reflexivity |]). split.
  - cbn [includes gears_h flat_map app].
    repeat (apply Forall_cons; [vm_compute; reflexivity |]).
    apply Forall_nil.
  - split; [vm_compute; reflexivity |]. split.
    + apply gears_h_compiles_iff. exact c11_types_lack_NSObject.
    + vm_compute. reflexivity.
Qed.

(** C9. The header declares the type name [Callback] for the type pointer
    to function taking a [const char*] and returning nothing, and
    [devServer] spells its parameter type with that name, where the
    specification spells the function pointer type in place: the two
    declarations differ as written and agree in signature. *)
Theorem Callback_is_declared_name :
  typedef_names gears_h = ["Callback"]
  /\ lookup_typedef "Callback" gears_h
     = Some (Tpointer (Tfunction Tvoid [Tpointer (Tconst Tchar)]))
  /\ map p_type (decl_params devServer) = [Tnamed "Callback"]
  /\ map p_type (decl_params spec_devServer)
     = [Tpointer (Tfunction Tvoid [Tpointer (Tconst Tchar)])]
  /\ devServer <> spec_devServer
  /\ signature_of "devServer" (signatures [] gears_h)
     = signature_of "devServer" (signatures [] spec_interface).
Proof.
  repeat (split; [reflexivity |]). split; [discriminate | reflexivity].
Qed.

(** ** Including the header more than once, or without its includes *)

(** [ctype_eqb] decides equality of types, so [declare] reports a conflict
    only where two types really differ. *)
Lemma ctype_eqb_eq : forall a b, ctype_eqb a b = true -> a = b.
Proof.
  fix IH 1.
  intros [| | | x | x | x | x | x | r ps] [| | | y | y | y | y | y | r' ps'];
    cbn; try discriminate; try reflexivity;
    try (intros H; apply String.eqb_eq in H; now subst);
    try (intros H; apply IH in H; now subst).
  intros H. apply andb_prop in H as [Hr Hps].
  apply IH in Hr. subst r'. f_equal.
  revert ps' Hps.
  induction ps as [| p ps IHps]; intros [| p' ps'] Hps;
    try discriminate; try reflexivity.
  apply andb_prop in Hps as [Hp Hps].
  apply IH in Hp. apply IHps in Hps. now subst.
Qed.

Lemma ctype_eqb_refl : forall a, ctype_eqb a a = true.
Proof.
  fix IH 1.
  intros [| | | x | x | x | x | x | r ps]; cbn;
    try reflexivity; try apply String.eqb_refl; try apply IH.
  rewrite IH. cbn.
  induction ps as [| p ps IHps]; [reflexivity |].
  rewrite IH. exact IHps.
Qed.

Lemma declare_all_app (a b : header) :
  forall st,
    declare_all st (a ++ b)
    = match declare_all st a with
      | Some st' => declare_all st' b
      | None => None
      end.
Proof.
  induction a as [| d a IH]; intros st; cbn; [reflexivity |].
  destruct (declare st d); [apply IH | reflexivity].
Qed.

(** A header that is accepted again where it ends, and leaves the
    declarations as they are, is accepted any number of times. *)
Lemma declare_all_included (h : header) (st : environment) :
  declare_all st h = Some st ->
  forall n, declare_all st (included n h) = Some st.
Proof.
  intros Hfix n. unfold included.
  induction n as [| n IH]; [reflexivity |].
  cbn [repeat concat]. rewrite declare_all_app, Hfix. exact IH.
Qed.

(** What [declare] refuses: a second definition of a struct or of a
    function, and a typedef name or a function declared again with another
    type. *)
Example conflicting_declarations :
  option_map (fun h => declare_all nothing_declared (included 2 h))
    (Parser.parse_header ["struct state { int fd; };"]) = Some None
  /\ option_map (fun h => declare_all nothing_declared (included 2 h))
       (Parser.parse_header ["int stop(void) { }"]) = Some None
  /\ option_map (declare_all nothing_declared)
       (Parser.parse_header ["typedef int T;"; "typedef char T;"])
     = Some None
  /\ option_map (declare_all nothing_declared)
       (Parser.parse_header ["void start(int x);"; "void start(char *x);"])
     = Some None.
Proof. repeat split; vm_compute; reflexivity. Qed.

(** X1. The four [#include] lines are not needed by the declarations of
    the header: as long as the included files do not declare [NSObject],
    the header without them misses exactly the type names it misses with
    them, in every translation unit. *)
Theorem gears_h_includes_unused
    (provides : string -> list string) (scope : list string) :
  existsb (fun f => in_scope (provides f) "NSObject") (includes gears_h)
  = false ->
  undeclared provides scope (without_includes gears_h)
  = undeclared provides scope gears_h.
Proof.
  intros H. rewrite gears_h_undeclared, !in_scope_app.
  cbn [includes gears_h flat_map app existsb start devServer] in H.
  repeat (apply orb_false_elim in H as [? H]).
  repeat match goal with E : in_scope _ _ = false |- _ => rewrite E end.
  rewrite !orb_false_r.
  cbn [without_includes gears_h filter undeclared start devServer Callback
       const_char_ptr missing named_types flat_map app p_type].
  unfold in_scope at 1 2. cbn [existsb].
  replace ("NSObject" =? "Callback") with false by reflexivity.
  replace ("Callback" =? "Callback") with true by reflexivity.
  cbn [orb negb]. fold (in_scope scope "NSObject").
  destruct (in_scope scope "NSObject"); reflexivity.
Qed.

Lemma gears_h_includes_unused_witness :
  existsb (fun f => in_scope (c11_types f) "NSObject") (includes gears_h)
  = false
  /\ undeclared c11_types ["NSObject"] (without_includes gears_h)
     = undeclared c11_types ["NSObject"] gears_h.
Proof.
  split; [vm_compute; reflexivity |].
  apply (gears_h_includes_unused c11_types ["NSObject"]).
  vm_compute; reflexivity.
Defined.

(** X2. Whatever the included files and the including translation unit
    declare, [NSObject] is the only type name the header can be missing:
    [Callback], the one other name it uses as a type, is declared on line 6
    before line 10 uses it. *)
Theorem gears_h_only_misses_NSObject
    (provides : string -> list string) (scope : list string) (n : string) :
  In n (undeclared provides scope gears_h) -> n = "NSObject".
Proof.
  rewrite gears_h_undeclared.
  destruct (in_scope _ "NSObject"); cbn; intros H; [contradiction |].
  destruct H as [<- | []]. reflexivity.
Qed.

Lemma gears_h_only_misses_NSObject_witness :
  In "NSObject" (undeclared c11_types [] gears_h)
  /\ "NSObject" = "NSObject".
Proof.
  split; [vm_compute; left; reflexivity |].
  apply (gears_h_only_misses_NSObject c11_types [] "NSObject").
  vm_compute; left; reflexivity.
Defined.

(** X3. The header has no include guard: its only preprocessor lines are
    the four [#include] lines.  Including it again is all the same
    accepted, any number of times: every later copy declares [Callback] for
    the same type and [start] and [devServer] with the same signatures, and
    the declarations in force stay those of the first copy. *)
Theorem gears_h_repeated_inclusion (n : nat) :
  directive_lines gears_h_lines
  = [ "#include <stdarg.h>"; "#include <stdbool.h>"
    ; "#include <stdint.h>"; "#include <stdlib.h>" ]
  /\ declare_all nothing_declared (included (S n) gears_h)
     = Some (mkEnvironment
               [ ("devServer",
                  Efunction
                    (mkSignature Tvoid
                       [Tpointer (Tfunction Tvoid [Tpointer (Tconst Tchar)])])
                    false)
               ; ("start",
                  Efunction
                    (mkSignature Tvoid
                       [Tpointer (Tnamed "NSObject"); Tpointer (Tconst Tchar)])
                    false)
               ; ("Callback",
                  Etypedef
                    (Tpointer (Tfunction Tvoid [Tpointer (Tconst Tchar)]))) ]
               []).
Proof.
  split; [vm_compute; reflexivity |].
  unfold included. cbn [repeat concat]. rewrite declare_all_app.
  replace (declare_all nothing_declared gears_h) with
    (Some (mkEnvironment
             [ ("devServer",
                Efunction
                  (mkSignature Tvoid
                     [Tpointer (Tfunction Tvoid [Tpointer (Tconst Tchar)])])
                  false)
             ; ("start",
                Efunction
                  (mkSignature Tvoid
                     [Tpointer (Tnamed "NSObject"); Tpointer (Tconst Tchar)])
                  false)
             ; ("Callback",
                Etypedef
                  (Tpointer (Tfunction Tvoid [Tpointer (Tconst Tchar)]))) ]
             []))
    by (vm_compute; reflexivity).
  apply declare_all_included. vm_compute. reflexivity.
Qed.
